(** * Regression trees of the boosting library: evaluation, scaling,
      JSON codec and ensemble prediction (src/Tree.h)

    The C++ [double] is IEEE 754 binary64, which is what Rocq's primitive
    [float] implements, so votes and scores are computed here with the
    same rounding as in the program.  [folly::dynamic] is an inductive
    type; a thrown C++ exception, a failed glog [CHECK] and undefined
    behaviour are the three ways a call can fail to return. *)

From Stdlib Require Import Floats.
From Stdlib Require Import ZArith List String Bool Lia.
Import ListNotations.

Local Open Scope string_scope.
Local Open Scope list_scope.
Local Open Scope Z_scope.

(** ** Outcomes of a call *)

Inductive failure : Type :=
| Thrown      (* a C++ exception propagates out of the call *)
| CheckFailed (* a glog CHECK failed: the process is aborted *)
| Undefined.  (* the call has undefined behaviour *)

Inductive result (A : Type) : Type :=
| Ok (a : A)
| Fail (e : failure).

Arguments Ok {A} a.
Arguments Fail {A} e.

Definition bind {A B : Type} (r : result A) (k : A -> result B) : result B :=
  match r with
  | Ok a => k a
  | Fail e => Fail e
  end.

Definition res_map {A B : Type} (g : A -> B) (r : result A) : result B :=
  bind r (fun a => Ok (g a)).

Definition is_ok {A : Type} (r : result A) : bool :=
  match r with
  | Ok _ => true
  | Fail _ => false
  end.

Notation "x <- r ;; k" := (bind r (fun x => k))
  (at level 61, r at next level, right associativity).

(** ** Doubles and the integer conversions of C++ *)

Definition double : Type := float.

(** [static_cast<double>(z)] for an integer [z]: the nearest binary64
    value, ties to even. *)
Definition Z2double (z : Z) : double :=
  SF2Prim (binary_normalize prec emax z 0 false).

(** The integer part of a finite double (rounding toward zero), as a
    conversion of a floating value to an integer type computes it. *)
Definition double_trunc (d : double) : option Z :=
  match Prim2SF d with
  | S754_zero _ => Some 0
  | S754_finite s m e =>
      let a := if 0 <=? e then Z.shiftl (Zpos m) e else Z.shiftr (Zpos m) (- e) in
      Some (if s then - a else a)
  | S754_infinity _ | S754_nan => None
  end.

Definition INT_MIN : Z := - 2 ^ 31.
Definition INT_MAX : Z := 2 ^ 31 - 1.

(** Conversion of an [int64_t] to [int]: reduction modulo 2^32 into the
    signed range. *)
Definition wrap_int (z : Z) : Z :=
  (z + 2 ^ 31) mod 2 ^ 32 - 2 ^ 31.

(** ** folly::dynamic *)

(** The keys of an object are strings: the program uses no others, and a
    parsed JSON object has no others.  An object is kept as an association
    list without repeated keys. *)
#[local] Unset Elimination Schemes.
Inductive dynamic : Type :=
| DNull
| DBool (b : bool)
| DInt (i : Z)
| DDouble (d : double)
| DString (s : string)
| DArray (l : list dynamic)
| DObject (m : list (string * dynamic)).
#[local] Set Elimination Schemes.

Fixpoint find_key {A : Type} (key : string) (m : list (string * A)) : option A :=
  match m with
  | [] => None
  | (k, v) :: m' => if String.eqb k key then Some v else find_key key m'
  end.

(** [obj[key]] on a const dynamic with a string key: [at(key)], which
    throws [std::out_of_range] for a missing key and [TypeError] when
    [obj] is not an object (an array wants an integer index). *)
Definition dyn_at (obj : dynamic) (key : string) : result dynamic :=
  match obj with
  | DObject m =>
      match find_key key m with
      | Some v => Ok v
      | None => Fail Thrown
      end
  | _ => Fail Thrown
  end.

(** [m.insert(key, val)]: the value of an existing key is replaced. *)
Fixpoint insert_key {A : Type} (key : string) (val : A) (m : list (string * A))
  : list (string * A) :=
  match m with
  | [] => [(key, val)]
  | (k, v) :: m' =>
      if String.eqb k key then (k, val) :: m' else (k, v) :: insert_key key val m'
  end.

Definition isInt (d : dynamic) : bool :=
  match d with
  | DInt _ => true
  | _ => false
  end.

(** folly's conversions between numbers and text ([folly::to]) are not
    part of this repository; the codec is parametrised by them. *)
Record Conv : Type := {
  str_to_double : string -> option double;  (* to<double>(fbstring), may throw *)
  int_to_double : Z -> option double;       (* to<double>(int64_t), may throw *)
  int_to_str : Z -> string;                 (* to<fbstring>(int64_t) *)
  double_to_str : double -> string;         (* to<fbstring>(double) *)
  bool_to_str : bool -> string              (* to<fbstring>(bool) *)
}.

Definition of_option {A : Type} (o : option A) : result A :=
  match o with
  | Some a => Ok a
  | None => Fail Thrown
  end.

Section Dynamic.

Variable cv : Conv.

(** [d.asDouble()] *)
Definition asDouble (d : dynamic) : result double :=
  match d with
  | DDouble x => Ok x
  | DInt i => of_option (int_to_double cv i)
  | DBool b => Ok (if b then 1%float else 0%float)
  | DString s => of_option (str_to_double cv s)
  | DNull | DArray _ | DObject _ => Fail Thrown
  end.

(** [d.asString()] *)
Definition asString (d : dynamic) : result string :=
  match d with
  | DString s => Ok s
  | DInt i => Ok (int_to_str cv i)
  | DDouble x => Ok (double_to_str cv x)
  | DBool b => Ok (bool_to_str cv b)
  | DNull | DArray _ | DObject _ => Fail Thrown
  end.

End Dynamic.

(** [d.asInt()] is only ever called under [isInt()], where it is the
    stored integer. *)
Definition asInt (d : dynamic) : result Z :=
  match d with
  | DInt i => Ok i
  | _ => Fail Thrown
  end.

(** ** The feature type [T] *)

(** What the templates ask of [T]: comparison, the conversions written
    as [static_cast<T>], the implicit conversion to [double], and the
    [folly::dynamic] made from a [T]. *)
Class FeatureType (T : Type) : Type := {
  T_leb : T -> T -> bool;            (* a <= b *)
  T_of_int : Z -> T;                 (* static_cast<T>(int64_t) *)
  T_of_double : double -> result T;  (* static_cast<T>(double) *)
  T_to_double : T -> double;         (* a T used where a double is wanted *)
  T_to_dynamic : T -> dynamic        (* folly::dynamic(T) *)
}.

(** [T = double] *)
#[export] Instance double_feature : FeatureType double := {
  T_leb := PrimFloat.leb;
  T_of_int := Z2double;
  T_of_double := fun d => Ok d;
  T_to_double := fun d => d;
  T_to_dynamic := DDouble
}.

(** [T = int], a 32-bit signed integer kept as a [Z] in its range.  A
    double whose integer part does not fit has no defined conversion. *)
Definition int_of_double (d : double) : result Z :=
  match double_trunc d with
  | Some z => if (INT_MIN <=? z) && (z <=? INT_MAX) then Ok z else Fail Undefined
  | None => Fail Undefined
  end.

#[export] Instance int_feature : FeatureType Z := {
  T_leb := Z.leb;
  T_of_int := wrap_int;
  T_of_double := int_of_double;
  T_to_double := Z2double;
  T_to_dynamic := DInt
}.

(** ** Config *)

(** Config.h is not part of the sources at hand; the two lookups the tree
    code calls are taken as given. *)
Record Config : Type := {
  getFeatureIndex : string -> Z;
  getFeatureName : Z -> string
}.

(** ** TreeNode, PartitionNode, LeafNode *)

(** A partition node owns both of its children; a node whose child is
    still NULL is not a tree and is not represented. *)
Inductive TreeNode (T : Type) : Type :=
| LeafNode (fvote_ : double)
| PartitionNode (fid_ : Z) (fv_ : T) (fvote_ : double) (left_ right_ : TreeNode T).

Arguments LeafNode {T} fvote_.
Arguments PartitionNode {T} fid_ fv_ fvote_ left_ right_.

(** [fvec[i]] on a [boost::scoped_array<T>]: no bounds are checked, an
    index outside the array is undefined behaviour. *)
Definition fvec_at {T : Type} (fvec : list T) (i : Z) : result T :=
  if i <? 0 then Fail Undefined
  else match nth_error fvec (Z.to_nat i) with
       | Some x => Ok x
       | None => Fail Undefined
       end.

Section Tree.

Context {T : Type} {FT : FeatureType T}.

Fixpoint eval (n : TreeNode T) (fvec : list T) : result double :=
  match n with
  | LeafNode fvote => Ok fvote
  | PartitionNode fid fv _ left_ right_ =>
      x <- fvec_at fvec fid ;;
      if T_leb x fv then eval left_ fvec else eval right_ fvec
  end.

(** [scale] updates the votes in place; the tree after the call is
    returned. *)
Fixpoint scale (w : double) (n : TreeNode T) : TreeNode T :=
  match n with
  | LeafNode fvote => LeafNode (fvote * w)%float
  | PartitionNode fid fv fvote left_ right_ =>
      PartitionNode fid fv (fvote * w)%float (scale w left_) (scale w right_)
  end.

Definition getVote (n : TreeNode T) : double :=
  match n with
  | LeafNode fvote => fvote
  | PartitionNode _ _ fvote _ _ => fvote
  end.

(** The votes of all nodes, in preorder. *)
Fixpoint votes (n : TreeNode T) : list double :=
  match n with
  | LeafNode fvote => [fvote]
  | PartitionNode _ _ fvote left_ right_ => fvote :: votes left_ ++ votes right_
  end.

(** The feature indices of all partition nodes, in preorder. *)
Fixpoint fids (n : TreeNode T) : list Z :=
  match n with
  | LeafNode _ => []
  | PartitionNode fid _ _ left_ right_ => fid :: fids left_ ++ fids right_
  end.

Definition is_leaf (n : TreeNode T) : bool :=
  match n with
  | LeafNode _ => true
  | PartitionNode _ _ _ _ _ => false
  end.

Section Codec.

Variable cv : Conv.
Variable cfg : Config.

Fixpoint toJson (n : TreeNode T) : dynamic :=
  match n with
  | LeafNode fvote =>
      let m := [] in
      let m := insert_key "index" (DInt (-1)) m in
      let m := insert_key "vote" (DDouble fvote) m in
      DObject m
  | PartitionNode fid fv fvote left_ right_ =>
      let m := [] in
      let m := insert_key "index" (DInt fid) m in
      let m := insert_key "value" (T_to_dynamic fv) m in
      let m := insert_key "left" (toJson left_) m in
      let m := insert_key "right" (toJson right_) m in
      let m := insert_key "vote" (DDouble fvote) m in
      let m := insert_key "feature" (DString (getFeatureName cfg fid)) m in
      DObject m
  end.

(** [double vote = static_cast<T>(obj["vote"].asDouble());] *)
Definition read_vote (obj : dynamic) : result double :=
  o <- dyn_at obj "vote" ;;
  d <- asDouble cv o ;;
  t <- T_of_double d ;;
  Ok (T_to_double t).

(** The [T value] read from [obj["value"]]. *)
Definition read_value (obj : dynamic) : result T :=
  o <- dyn_at obj "value" ;;
  if isInt o then
    i <- asInt o ;; Ok (T_of_int i)
  else
    d <- asDouble cv o ;; T_of_double d.

(** The pointer [feature] after the try block: null when
    [obj["feature"]] threw. *)
Definition feature_of (obj : dynamic) : option dynamic :=
  match dyn_at obj "feature" with
  | Ok f => Some f
  | Fail _ => None
  end.

(** The body of [fromJson]; [child key] is the recursive call
    [fromJson<T>(obj[key], cfg)]. *)
Definition fromJson_body (obj : dynamic)
    (child : string -> result (TreeNode T)) : result (TreeNode T) :=
  let feature := feature_of obj in
  vote <- read_vote obj ;;
  match feature with
  | None => Ok (LeafNode vote)
  | Some f =>
      featureName <- asString cv f ;;
      let index := getFeatureIndex cfg featureName in
      if index <? 0 then Fail CheckFailed
      else
        value <- read_value obj ;;
        lt <- child "left" ;;
        rt <- child "right" ;;
        Ok (PartitionNode index value vote lt rt)
  end.

(** The recursion is on the document: the call for [obj[key]] is
    found by walking the fields of [obj], so that it is made on a
    part of [obj]. *)
Fixpoint fromJson (obj : dynamic) : result (TreeNode T) :=
  fromJson_body obj
    (fun key =>
       match obj with
       | DObject m =>
           (fix at_key (m : list (string * dynamic)) : result (TreeNode T) :=
              match m with
              | [] => Fail Thrown
              | (k, v) :: m' =>
                  if String.eqb k key then fromJson v else at_key m'
              end) m
       | _ => Fail Thrown
       end).

End Codec.

(** The loop of [predict], entered with the sum [f] so far. *)
Fixpoint predict_loop (f : double) (models : list (TreeNode T)) (fvec : list T)
  : result double :=
  match models with
  | [] => Ok f
  | m :: rest =>
      e <- eval m fvec ;;
      predict_loop (f + e)%float rest fvec
  end.

Definition predict (models : list (TreeNode T)) (fvec : list T) : result double :=
  predict_loop 0%float models fvec.

(** The loop of [predict_vec]: [score] is the content of the vector the
    caller's pointer refers to; the returned pair is the function's
    result and the content of that vector after the call. *)
Fixpoint predict_vec_loop (f : double) (models : list (TreeNode T)) (fvec : list T)
    (score : list double) : result (double * list double) :=
  match models with
  | [] => Ok (f, score)
  | m :: rest =>
      e <- eval m fvec ;;
      let f := (f + e)%float in
      predict_vec_loop f rest fvec (score ++ [f])
  end.

Definition predict_vec (models : list (TreeNode T)) (fvec : list T)
    (score : list double) : result (double * list double) :=
  predict_vec_loop 0%float models fvec score.

End Tree.

(** ** Notions the statements below are written with *)

(** The sum of a sequence of doubles taken from the left, starting at
    [0.0]. *)
Definition sum_doubles (es : list double) : double :=
  fold_left PrimFloat.add es 0%float.

(** The partial sums of [es]: the sum of its first element, of its first
    two, and so on up to the sum of all. *)
Definition partial_sums (es : list double) : list double :=
  map (fun i => sum_doubles (firstn (S i) es)) (seq 0 (List.length es)).

Section Notions.

Context {T : Type} {FT : FeatureType T}.

(** [fvec] has an element at every feature index used in [n]. *)
Definition covers (fvec : list T) (n : TreeNode T) : Prop :=
  Forall (fun i => 0 <= i < Z.of_nat (List.length fvec)) (fids n).

(** [es] are the values of the [models] on [fvec], tree by tree. *)
Definition evals_to (models : list (TreeNode T)) (fvec : list T)
    (es : list double) : Prop :=
  Forall2 (fun m e => eval m fvec = Ok e) models es.

(** Every feature index of [n] is one the configuration names and
    resolves back to. *)
Definition consistent (cfg : Config) (n : TreeNode T) : Prop :=
  Forall (fun i => 0 <= i /\ getFeatureIndex cfg (getFeatureName cfg i) = i)
         (fids n).

(** The thresholds of all partition nodes, in preorder. *)
Fixpoint thresholds (n : TreeNode T) : list T :=
  match n with
  | LeafNode _ => []
  | PartitionNode _ fv _ left_ right_ => fv :: thresholds left_ ++ thresholds right_
  end.

(** The votes of the leaves, from left to right. *)
Fixpoint leaf_votes (n : TreeNode T) : list double :=
  match n with
  | LeafNode fvote => [fvote]
  | PartitionNode _ _ _ left_ right_ => leaf_votes left_ ++ leaf_votes right_
  end.

(** The tree [n] with every vote [v], of a leaf or of a partition node,
    replaced by [g v], and nothing else changed. *)
Fixpoint map_votes (g : double -> double) (n : TreeNode T) : TreeNode T :=
  match n with
  | LeafNode fvote => LeafNode (g fvote)
  | PartitionNode fid fv fvote left_ right_ =>
      PartitionNode fid fv (g fvote) (map_votes g left_) (map_votes g right_)
  end.

(** What is left of a tree when its votes are blanked: its shape, and
    the feature index and threshold of every partition node. *)
Definition erase_votes (n : TreeNode T) : TreeNode T :=
  map_votes (fun _ => 0%float) n.

(** A vote that the conversion through [T] in [read_vote] gives back
    unchanged. *)
Definition vote_survives (v : double) : Prop :=
  (t <- T_of_double v ;; Ok (T_to_double t)) = Ok v.

(** A threshold that is read back from the dynamic made of it. *)
Definition threshold_survives (cv : Conv) (fv : T) : Prop :=
  read_value cv (DObject [("value", T_to_dynamic fv)]) = Ok fv.

End Notions.

(** [sub] is [top] or a document met by [fromJson] on the way down from
    [top]: the ["left"] or ["right"] field of a document that has a
    ["feature"] field. *)
Inductive reaches : dynamic -> dynamic -> Prop :=
| reaches_refl (obj : dynamic) : reaches obj obj
| reaches_child (top obj f sub : dynamic) (key : string) :
    reaches top obj ->
    dyn_at obj "feature" = Ok f ->
    key = "left" \/ key = "right" ->
    dyn_at obj key = Ok sub ->
    reaches top sub.

(** ** Sample data *)

Module Sample.

(** Conversions that agree with folly's at least on integers a double
    holds exactly. *)
Definition cv : Conv := {|
  str_to_double := fun _ => None;
  int_to_double := fun z => Some (Z2double z);
  int_to_str := fun _ => "";
  double_to_str := fun _ => "";
  bool_to_str := fun b => if b then "1" else "0" |}.

(** A configuration with the single feature ["age"] at index 0. *)
Definition cfg : Config := {|
  getFeatureIndex := fun s => if String.eqb s "age" then 0 else -1;
  getFeatureName := fun _ => "age" |}.

(** Split(feature_index=0, threshold=5, left=Leaf(1.0), right=Leaf(2.0)) *)
Definition split_int : TreeNode Z :=
  PartitionNode 0 5 0%float (LeafNode 1%float) (LeafNode 2%float).

Definition split_double : TreeNode double :=
  PartitionNode 0 5%float 1.5%float (LeafNode 1%float) (LeafNode 2.5%float).

(** {"vote":2.5} *)
Definition leaf_doc : dynamic := DObject [("vote", DDouble 2.5%float)].

(** {"feature":"age","value":30,"vote":1.0,"left":{"vote":0},"right":{"vote":1}} *)
Definition split_doc : dynamic :=
  DObject [("feature", DString "age"); ("value", DInt 30);
           ("vote", DDouble 1%float);
           ("left", DObject [("vote", DInt 0)]);
           ("right", DObject [("vote", DInt 1)])].

(** {"feature":"height","value":30,"vote":1.0,"left":{"vote":0},"right":{"vote":1}} *)
Definition unknown_doc : dynamic :=
  DObject [("feature", DString "height"); ("value", DInt 30);
           ("vote", DDouble 1%float);
           ("left", DObject [("vote", DInt 0)]);
           ("right", DObject [("vote", DInt 1)])].

(** A split whose right child is a split without a ["right"] field. *)
Definition broken_doc : dynamic :=
  DObject [("feature", DString "age"); ("value", DInt 30);
           ("vote", DDouble 1%float);
           ("left", DObject [("vote", DInt 0)]);
           ("right", DObject [("feature", DString "age"); ("value", DInt 7);
                              ("vote", DDouble 1%float);
                              ("left", DObject [("vote", DInt 0)])])].

(** {"index":-1,"vote":2.5} *)
Definition leaf_doc_with_index : dynamic :=
  DObject [("index", DInt (-1)); ("vote", DDouble 2.5%float)].

(** A split whose left child has a vote that is not a number. *)
Definition bad_vote_doc : dynamic :=
  DObject [("feature", DString "age"); ("value", DInt 30);
           ("vote", DDouble 1%float);
           ("left", DObject [("vote", DString "high")]);
           ("right", DObject [("vote", DInt 1)])].

(** Split(feature_index=0, threshold=5, vote=0.5, left=Leaf(1.0), right=Leaf(2.5)) *)
Definition fractional_int : TreeNode Z :=
  PartitionNode 0 5 0.5%float (LeafNode 1%float) (LeafNode 2.5%float).

(** 0.1, 0.2 and 0.3 as the doubles nearest to them. *)
Definition tenth : double := 0x1.999999999999ap-4%float.
Definition fifth : double := 0x1.999999999999ap-3%float.
Definition three_tenths : double := 0x1.3333333333333p-2%float.

End Sample.

(** * Properties *)

(** ** The error monad *)

Lemma bind_ok {A B : Type} (r : result A) (k : A -> result B) (b : B) :
  bind r k = Ok b -> exists a, r = Ok a /\ k a = Ok b.
Proof.
  destruct r as [a | e]; simpl; intro H; [exists a; auto | discriminate].
Qed.

Lemma bind_fail {A B : Type} (r : result A) (k : A -> result B) :
  is_ok r = false -> is_ok (bind r k) = false.
Proof.
  destruct r; simpl; [discriminate | reflexivity].
Qed.

Lemma res_map_comp {A B C : Type} (g : A -> B) (h : B -> C) (r : result A) :
  res_map h (res_map g r) = res_map (fun a => h (g a)) r.
Proof.
  destruct r; reflexivity.
Qed.

Lemma res_map_ext {A B : Type} (g h : A -> B) (r : result A) :
  (forall a, g a = h a) -> res_map g r = res_map h r.
Proof.
  intro E. destruct r; simpl; [rewrite E|]; reflexivity.
Qed.

Lemma is_ok_false {A : Type} (r : result A) :
  is_ok r = false <-> forall a, r <> Ok a.
Proof.
  destruct r as [a | e]; simpl; split; intro H.
  - discriminate.
  - exfalso. apply (H a). reflexivity.
  - intros a. discriminate.
  - reflexivity.
Qed.

(** ** fromJson, one call at a time *)

Section CodecFacts.

Context {T : Type} {FT : FeatureType T}.
Variable cv : Conv.
Variable cfg : Config.

Lemma fromJson_body_ext (obj : dynamic) (c1 c2 : string -> result (TreeNode T)) :
  (forall key, c1 key = c2 key) ->
  fromJson_body cv cfg obj c1 = fromJson_body cv cfg obj c2.
Proof.
  intro E. unfold fromJson_body.
  rewrite (E "left"), (E "right"). reflexivity.
Qed.

(** [fromJson] as the source reads: the children are
    [fromJson(obj["left"])] and [fromJson(obj["right"])]. *)
Lemma fromJson_eq (obj : dynamic) :
  fromJson cv cfg obj =
  fromJson_body cv cfg obj (fun key => o <- dyn_at obj key ;; fromJson cv cfg o).
Proof.
  destruct obj; cbn [fromJson]; apply fromJson_body_ext; intro key;
    try reflexivity.
  unfold dyn_at.
  induction m as [| [k v] m IH]; cbn [find_key]; [reflexivity |].
  destruct (String.eqb k key); [reflexivity | exact IH].
Qed.

Lemma fromJson_no_feature (obj : dynamic) :
  feature_of obj = None ->
  fromJson cv cfg obj = (vote <- read_vote cv obj ;; Ok (LeafNode vote)).
Proof.
  intro H. rewrite fromJson_eq. unfold fromJson_body. rewrite H. reflexivity.
Qed.

Lemma fromJson_feature (obj f : dynamic) :
  feature_of obj = Some f ->
  fromJson cv cfg obj =
  (vote <- read_vote cv obj ;;
   featureName <- asString cv f ;;
   if getFeatureIndex cfg featureName <? 0 then Fail CheckFailed
   else
     value <- read_value cv obj ;;
     lt <- (o <- dyn_at obj "left" ;; fromJson cv cfg o) ;;
     rt <- (o <- dyn_at obj "right" ;; fromJson cv cfg o) ;;
     Ok (PartitionNode (getFeatureIndex cfg featureName) value vote lt rt)).
Proof.
  intro H. rewrite fromJson_eq. unfold fromJson_body. rewrite H. reflexivity.
Qed.

Lemma feature_of_at (obj f : dynamic) :
  dyn_at obj "feature" = Ok f -> feature_of obj = Some f.
Proof.
  unfold feature_of. intros ->. reflexivity.
Qed.

(** A document with a ["feature"] field never gives a leaf, one
    without never gives a partition node. *)
Lemma fromJson_kind (obj : dynamic) (t : TreeNode T) :
  fromJson cv cfg obj = Ok t ->
  is_leaf t = match feature_of obj with None => true | Some _ => false end.
Proof.
  destruct (feature_of obj) as [f |] eqn:F.
  - rewrite (fromJson_feature _ _ F). intro H.
    apply bind_ok in H. destruct H as (vote & _ & H).
    apply bind_ok in H. destruct H as (name & _ & H).
    destruct (getFeatureIndex cfg name <? 0); [discriminate |].
    apply bind_ok in H. destruct H as (value & _ & H).
    apply bind_ok in H. destruct H as (lt & _ & H).
    apply bind_ok in H. destruct H as (rt & _ & H).
    injection H as <-. reflexivity.
  - rewrite (fromJson_no_feature _ F). intro H.
    apply bind_ok in H. destruct H as (vote & _ & H).
    injection H as <-. reflexivity.
Qed.

(** A child call that does not return makes [fromJson] not return. *)
Lemma fromJson_child_fails (obj f : dynamic) (key : string) :
  dyn_at obj "feature" = Ok f ->
  key = "left" \/ key = "right" ->
  is_ok (o <- dyn_at obj key ;; fromJson cv cfg o) = false ->
  is_ok (fromJson cv cfg obj) = false.
Proof.
  intros F K H. rewrite (fromJson_feature _ _ (feature_of_at _ _ F)).
  destruct (read_vote cv obj) as [vote |]; [cbn [bind] | reflexivity].
  destruct (asString cv f) as [name |]; [cbn [bind] | reflexivity].
  destruct (getFeatureIndex cfg name <? 0); [reflexivity |].
  destruct (read_value cv obj) as [value |]; [cbn [bind] | reflexivity].
  destruct K as [-> | ->].
  - apply bind_fail. exact H.
  - destruct (o <- dyn_at obj "left" ;; fromJson cv cfg o) as [lt |];
      [cbn [bind] | reflexivity].
    apply bind_fail. exact H.
Qed.

Lemma fromJson_reaches (top obj : dynamic) :
  reaches top obj ->
  is_ok (fromJson cv cfg obj) = false ->
  is_ok (fromJson cv cfg top) = false.
Proof.
  induction 1 as [obj | top obj f sub key R IH F K A]; intro H.
  - exact H.
  - apply IH. apply (fromJson_child_fails obj f key F K).
    rewrite A. exact H.
Qed.

(** C4 (as amended): when deserialization returns a tree, the tree is a
    leaf exactly when the document has no ["feature"] field.  A document
    without ["feature"] deserializes to a leaf, whatever its other
    fields, whenever its ["vote"] field is there, is read as a double by
    [asDouble], and that double has a conversion to the feature type.
    When ["vote"] is missing, or is not read as a double, the call
    returns no tree, with or without a ["feature"] field. *)
Theorem leaf_iff_no_feature (obj : dynamic) :
  (forall t, fromJson cv cfg obj = Ok t ->
             (is_leaf t = true <-> feature_of obj = None)) /\
  (feature_of obj = None ->
   forall o d x,
     dyn_at obj "vote" = Ok o ->
     asDouble cv o = Ok d ->
     T_of_double d = Ok x ->
     fromJson cv cfg obj = Ok (LeafNode (T_to_double x))) /\
  (is_ok (dyn_at obj "vote") = false ->
   is_ok (fromJson cv cfg obj) = false) /\
  (forall o, dyn_at obj "vote" = Ok o ->
             is_ok (asDouble cv o) = false ->
             is_ok (fromJson cv cfg obj) = false).
Proof.
  split; [| split; [| split]].
  - intros t H. rewrite (fromJson_kind _ _ H).
    destruct (feature_of obj); split; intro E; try reflexivity; discriminate.
  - intros F o d x O D X. rewrite (fromJson_no_feature _ F).
    unfold read_vote. rewrite O. cbn [bind]. rewrite D. cbn [bind].
    rewrite X. reflexivity.
  - intro M. rewrite fromJson_eq. unfold fromJson_body, read_vote.
    apply bind_fail. apply bind_fail. exact M.
  - intros o O D. rewrite fromJson_eq. unfold fromJson_body, read_vote.
    apply bind_fail. rewrite O. cbn [bind]. apply bind_fail. exact D.
Qed.

(** C5: a document with a ["feature"] field whose name the
    configuration resolves to a negative index is never deserialized to
    a tree; once its vote has been read, the call ends in the failed
    CHECK. *)
Theorem unresolved_feature_fails (obj f : dynamic) (name : string) :
  dyn_at obj "feature" = Ok f ->
  asString cv f = Ok name ->
  getFeatureIndex cfg name < 0 ->
  is_ok (fromJson cv cfg obj) = false /\
  (forall vote, read_vote cv obj = Ok vote ->
                fromJson cv cfg obj = Fail CheckFailed).
Proof.
  intros F N I. rewrite (fromJson_feature _ _ (feature_of_at _ _ F)), N.
  apply Z.ltb_lt in I.
  split.
  - destruct (read_vote cv obj); cbn [bind]; [rewrite I |]; reflexivity.
  - intros vote ->. cbn [bind]. rewrite I. reflexivity.
Qed.

(** C6: if [fromJson], started on [top], comes to a document with a
    ["feature"] field that has no ["left"] or no ["right"] field, the
    call on [top] returns no tree. *)
Theorem missing_child_fails (top obj f : dynamic) :
  reaches top obj ->
  dyn_at obj "feature" = Ok f ->
  is_ok (dyn_at obj "left") = false \/ is_ok (dyn_at obj "right") = false ->
  is_ok (fromJson cv cfg top) = false.
Proof.
  intros R F M. apply (fromJson_reaches top obj R).
  destruct M as [M | M].
  - apply (fromJson_child_fails obj f "left" F); [left; reflexivity |].
    apply bind_fail. exact M.
  - apply (fromJson_child_fails obj f "right" F); [right; reflexivity |].
    apply bind_fail. exact M.
Qed.

Lemma fromJson_toJson (t : TreeNode T) :
  consistent cfg t ->
  Forall vote_survives (votes t) ->
  Forall (threshold_survives cv) (thresholds t) ->
  fromJson cv cfg (toJson cfg t) = Ok t.
Proof.
  induction t as [v | fid fv v l IHl r IHr]; intros C V Th.
  - rewrite fromJson_no_feature by reflexivity.
    inversion V as [| ? ? Hv _]; subst.
    unfold read_vote. cbn [toJson insert_key dyn_at find_key String.eqb
      Ascii.eqb Bool.eqb bind asDouble].
    unfold vote_survives in Hv.
    destruct (T_of_double v) as [x |]; [| discriminate].
    cbn [bind] in *. injection Hv as ->. reflexivity.
  - unfold consistent in C. cbn [fids votes thresholds] in C, V, Th.
    inversion C as [| ? ? [Hfid Hidx] C']; subst.
    inversion V as [| ? ? Hv V']; subst.
    inversion Th as [| ? ? Hfv Th']; subst.
    apply Forall_app in C'. destruct C' as [Cl Cr].
    apply Forall_app in V'. destruct V' as [Vl Vr].
    apply Forall_app in Th'. destruct Th' as [Thl Thr].
    specialize (IHl Cl Vl Thl). specialize (IHr Cr Vr Thr).
    rewrite (fromJson_feature _ (DString (getFeatureName cfg fid)))
      by reflexivity.
    unfold read_vote, read_value.
    cbn [toJson insert_key dyn_at find_key String.eqb
      Ascii.eqb Bool.eqb bind asDouble asString].
    unfold vote_survives in Hv.
    destruct (T_of_double v) as [x |]; [| discriminate].
    cbn [bind] in *. injection Hv as ->.
    rewrite Hidx.
    destruct (fid <? 0) eqn:E; [apply Z.ltb_lt in E; lia |].
    unfold threshold_survives, read_value in Hfv.
    cbn [dyn_at find_key String.eqb Ascii.eqb Bool.eqb bind] in Hfv.
    rewrite Hfv. cbn [bind].
    rewrite IHl, IHr. reflexivity.
Qed.

(** X1: a tree consistent with the configuration, whose votes are given
    back unchanged by the conversion through [T] that [fromJson] applies
    to a vote, and whose thresholds are read back from the dynamics made
    of them, is deserialized from its own serialization as the tree it
    was. *)
Theorem roundtrip (t : TreeNode T) :
  consistent cfg t ->
  Forall vote_survives (votes t) ->
  Forall (threshold_survives cv) (thresholds t) ->
  fromJson cv cfg (toJson cfg t) = Ok t.
Proof.
  intros C V Th. apply fromJson_toJson; assumption.
Qed.

End CodecFacts.

(** ** eval and scale *)

Section TreeFacts.

Context {T : Type} {FT : FeatureType T}.

Lemma fvec_at_covered (fvec : list T) (i : Z) :
  0 <= i < Z.of_nat (List.length fvec) ->
  exists x, nth_error fvec (Z.to_nat i) = Some x /\ fvec_at fvec i = Ok x.
Proof.
  intros [Lo Hi]. unfold fvec_at.
  destruct (i <? 0) eqn:E; [apply Z.ltb_lt in E; lia |].
  destruct (nth_error fvec (Z.to_nat i)) as [x |] eqn:N.
  - exists x. split; reflexivity.
  - apply nth_error_None in N. lia.
Qed.

(** C2: a leaf evaluates to its vote, whatever the vector; a partition
    node whose feature index lies within the vector evaluates to what
    its left child evaluates to when [fvec[fid] <= fv], and to what its
    right child evaluates to otherwise. *)
Theorem eval_leaf_partition (fvec : list T) :
  (forall fvote, eval (LeafNode fvote) fvec = Ok fvote) /\
  (forall fid fv fvote left_ right_,
      0 <= fid < Z.of_nat (List.length fvec) ->
      exists x,
        nth_error fvec (Z.to_nat fid) = Some x /\
        eval (PartitionNode fid fv fvote left_ right_) fvec =
        if T_leb x fv then eval left_ fvec else eval right_ fvec).
Proof.
  split; [reflexivity |].
  intros fid fv fvote l r H.
  destruct (fvec_at_covered fvec fid H) as (x & N & A).
  exists x. split; [exact N |].
  cbn [eval]. rewrite A. reflexivity.
Qed.

Lemma eval_covers (fvec : list T) (n : TreeNode T) :
  covers fvec n -> exists e, eval n fvec = Ok e.
Proof.
  unfold covers.
  induction n as [v | fid fv v l IHl r IHr]; cbn [fids eval]; intro C.
  - exists v. reflexivity.
  - inversion C as [| ? ? Hfid C']; subst.
    apply Forall_app in C'. destruct C' as [Cl Cr].
    destruct (fvec_at_covered fvec fid Hfid) as (x & _ & ->). cbn [bind].
    destruct (T_leb x fv); auto.
Qed.

Lemma evals_covers (fvec : list T) (models : list (TreeNode T)) :
  Forall (covers fvec) models -> exists es, evals_to models fvec es.
Proof.
  unfold evals_to.
  induction 1 as [| m rest Cm _ (es & IH)].
  - exists []. constructor.
  - destruct (eval_covers fvec m Cm) as (e & E).
    exists (e :: es). constructor; assumption.
Qed.

Lemma votes_scale (w : double) (n : TreeNode T) :
  votes (scale w n) = map (fun v => (v * w)%float) (votes n).
Proof.
  induction n as [v | fid fv v l IHl r IHr]; cbn [scale votes map].
  - reflexivity.
  - rewrite IHl, IHr, map_app. reflexivity.
Qed.

Lemma map_votes_eq (g h : double -> double) (n : TreeNode T) :
  map_votes g n = map_votes h n <-> Forall (fun v => g v = h v) (votes n).
Proof.
  induction n as [v | fid fv v l IHl r IHr]; cbn [map_votes votes].
  - split.
    + intro H. injection H as H. constructor; [exact H | constructor].
    + intro A. inversion A as [| ? ? Hv _]; subst. rewrite Hv. reflexivity.
  - split.
    + intro H. injection H as Hv Hl Hr.
      constructor; [exact Hv |].
      apply Forall_app. split; [apply IHl; exact Hl | apply IHr; exact Hr].
    + intro A. inversion A as [| ? ? Hv A']; subst.
      apply Forall_app in A'. destruct A' as [Al Ar].
      apply IHl in Al. apply IHr in Ar. rewrite Hv, Al, Ar. reflexivity.
Qed.

Lemma scale_map_votes (w : double) (n : TreeNode T) :
  scale w n = map_votes (fun v => (v * w)%float) n.
Proof.
  induction n as [v | fid fv v l IHl r IHr]; cbn [scale map_votes].
  - reflexivity.
  - rewrite IHl, IHr. reflexivity.
Qed.

Lemma map_votes_map_votes (g h : double -> double) (n : TreeNode T) :
  map_votes h (map_votes g n) = map_votes (fun v => h (g v)) n.
Proof.
  induction n as [v | fid fv v l IHl r IHr]; cbn [map_votes].
  - reflexivity.
  - rewrite IHl, IHr. reflexivity.
Qed.

(** C7 (as amended): [scale(w1); scale(w2)] leaves the tree as it was
    but for the votes, every node holding [(v * w1) * w2] for [v] its
    vote before; [scale(w1 * w2)] leaves it as it was but for the votes,
    every node holding [v * (w1 * w2)]; and the two trees are the same
    exactly when these two products are the same double for every vote
    of the tree. *)
Theorem scale_twice (w1 w2 : double) (n : TreeNode T) :
  scale w2 (scale w1 n) = map_votes (fun v => ((v * w1) * w2)%float) n /\
  scale (w1 * w2)%float n = map_votes (fun v => (v * (w1 * w2))%float) n /\
  (scale w2 (scale w1 n) = scale (w1 * w2)%float n <->
   Forall (fun v : double => ((v * w1) * w2)%float = (v * (w1 * w2))%float)
          (votes n)).
Proof.
  assert (A : scale w2 (scale w1 n) =
              map_votes (fun v => ((v * w1) * w2)%float) n).
  { rewrite (scale_map_votes w2), (scale_map_votes w1).
    apply map_votes_map_votes. }
  split; [exact A | split; [apply scale_map_votes |]].
  rewrite A, (scale_map_votes (w1 * w2)%float).
  apply map_votes_eq.
Qed.

End TreeFacts.

(** ** predict and predict_vec *)

Section EnsembleFacts.

Context {T : Type} {FT : FeatureType T}.
Variable fvec : list T.

Lemma predict_loop_sum (models : list (TreeNode T)) (es : list double) :
  evals_to models fvec es ->
  forall f, predict_loop f models fvec = Ok (fold_left PrimFloat.add es f).
Proof.
  induction 1 as [| m e rest es E _ IH]; intro f; cbn [predict_loop fold_left].
  - reflexivity.
  - rewrite E. cbn [bind]. apply IH.
Qed.

(** C8: when the vector covers the feature indices of every tree,
    [predict] returns the sum, from the left and starting at 0.0, of
    the values of the trees; on no trees it returns 0.0. *)
Theorem predict_is_sum (models : list (TreeNode T)) :
  Forall (covers fvec) models ->
  (exists es, evals_to models fvec es /\
              predict models fvec = Ok (sum_doubles es)) /\
  predict [] fvec = Ok 0%float.
Proof.
  intro C. split; [| reflexivity].
  destruct (evals_covers fvec models C) as (es & E).
  exists es. split; [exact E |].
  apply (predict_loop_sum models es E).
Qed.

Lemma predict_vec_loop_app (models : list (TreeNode T)) :
  forall f score,
    predict_vec_loop f models fvec score =
    res_map (fun p => (fst p, score ++ snd p))
            (predict_vec_loop f models fvec []).
Proof.
  induction models as [| m rest IH]; intros f score; cbn [predict_vec_loop].
  - cbn. rewrite app_nil_r. reflexivity.
  - destruct (eval m fvec) as [e |]; [cbn [bind] | reflexivity].
    rewrite (IH _ (score ++ [(f + e)%float])), (IH _ ([] ++ [(f + e)%float])).
    rewrite res_map_comp. apply res_map_ext.
    intros [g new]. cbn [fst snd app]. rewrite <- app_assoc. reflexivity.
Qed.

Lemma predict_vec_loop_sums (models : list (TreeNode T)) (es : list double) :
  evals_to models fvec es ->
  forall f score,
    predict_vec_loop f models fvec score =
    Ok (fold_left PrimFloat.add es f,
        score ++ map (fun i => fold_left PrimFloat.add (firstn (S i) es) f)
                     (seq 0 (List.length es))).
Proof.
  induction 1 as [| m e rest es E _ IH]; intros f score.
  - cbn. rewrite app_nil_r. reflexivity.
  - cbn [predict_vec_loop]. rewrite E. cbn [bind].
    rewrite (IH (f + e)%float (score ++ [(f + e)%float])).
    cbn [fold_left List.length seq map firstn].
    rewrite <- seq_shift, map_map, <- app_assoc. reflexivity.
Qed.

(** C10: [predict_vec] appends to the score vector and clears nothing.
    Called on a vector holding [score], it gives what the call on an
    empty vector gives, with [score] in front of the vector's content and
    the same returned total; and when the trees have the values [es] on
    the vector, the content after the call is [score] followed by the
    partial sums of [es], and the returned total is the sum of [es],
    whatever [score] is. *)
Theorem predict_vec_appends (models : list (TreeNode T)) (score : list double) :
  predict_vec models fvec score =
  res_map (fun p => (fst p, score ++ snd p)) (predict_vec models fvec []) /\
  (forall es,
      evals_to models fvec es ->
      predict_vec models fvec score =
      Ok (sum_doubles es, score ++ partial_sums es)).
Proof.
  split.
  - apply predict_vec_loop_app.
  - intros es E. apply (predict_vec_loop_sums models es E).
Qed.

Lemma predict_vec_loop_spec (models : list (TreeNode T)) (es : list double) :
  evals_to models fvec es ->
  forall f,
  exists scores,
    predict_vec_loop f models fvec [] = Ok (fold_left PrimFloat.add es f, scores) /\
    List.length scores = List.length models /\
    (forall i, (i < List.length models)%nat ->
               nth_error scores i =
               Some (fold_left PrimFloat.add (firstn (S i) es) f)) /\
    (models <> [] -> last scores 0%float = fold_left PrimFloat.add es f).
Proof.
  induction 1 as [| m e rest es E R IH]; intro f.
  - exists []. cbn. repeat split; try reflexivity.
    + intros i Hi. inversion Hi.
    + intro N. exfalso. apply N. reflexivity.
  - destruct (IH (f + e)%float) as (scores & P & L & N & La).
    exists ((f + e)%float :: scores).
    cbn [predict_vec_loop]. rewrite E. cbn [bind app].
    rewrite predict_vec_loop_app, P. cbn [res_map bind fst snd app fold_left].
    repeat split.
    + cbn [List.length]. rewrite L. reflexivity.
    + intros [| i] Hi; [reflexivity |].
      cbn [nth_error firstn fold_left]. apply N.
      cbn [List.length] in Hi. lia.
    + intros _. destruct rest as [| m' rest'].
      * inversion R; subst. destruct scores; [reflexivity | discriminate].
      * destruct scores as [| s scores']; [discriminate |].
        change (last ((f + e)%float :: s :: scores') 0%float)
          with (last (s :: scores') 0%float).
        apply La. discriminate.
Qed.

(** C9: when the vector covers the feature indices of every tree,
    [predict_vec], called on an empty score vector, leaves in it one
    entry per tree, the entry of the i-th tree being the sum of the
    values of the trees up to and including it; it returns the sum of
    all of them, which is what [predict] returns and, when there is a
    tree at all, the last entry. *)
Theorem predict_vec_running_totals (models : list (TreeNode T)) :
  Forall (covers fvec) models ->
  exists es scores,
    evals_to models fvec es /\
    predict_vec models fvec [] = Ok (sum_doubles es, scores) /\
    List.length scores = List.length models /\
    (forall i, (i < List.length models)%nat ->
               nth_error scores i = Some (sum_doubles (firstn (S i) es))) /\
    predict models fvec = Ok (sum_doubles es) /\
    (models <> [] -> last scores 0%float = sum_doubles es).
Proof.
  intro C.
  destruct (evals_covers fvec models C) as (es & E).
  destruct (predict_vec_loop_spec models es E 0%float) as (scores & P & L & N & La).
  exists es, scores.
  repeat split; try assumption.
  apply (predict_loop_sum models es E).
Qed.

End EnsembleFacts.

(** ** The two feature types at work *)

(** The example of the specification: the boundary goes to the left. *)
Example eval_split_int_below : eval Sample.split_int [3] = Ok 1%float.
Proof. reflexivity. Qed.

Example eval_split_int_boundary : eval Sample.split_int [5] = Ok 1%float.
Proof. reflexivity. Qed.

Example eval_split_int_above : eval Sample.split_int [6] = Ok 2%float.
Proof. reflexivity. Qed.

Example eval_split_int_short_vector : eval Sample.split_int [] = Fail Undefined.
Proof. reflexivity. Qed.

(** For [T = int], a vector element equal to the threshold goes left. *)
Lemma eval_boundary_int (fid fv : Z) (fvote : double) (left_ right_ : TreeNode Z)
    (fvec : list Z) :
  fvec_at fvec fid = Ok fv ->
  eval (PartitionNode fid fv fvote left_ right_) fvec = eval left_ fvec.
Proof.
  intro A. cbn [eval]. rewrite A. cbn [bind T_leb int_feature].
  rewrite Z.leb_refl. reflexivity.
Qed.

(** For [T = double], a NaN element or threshold goes right. *)
Example eval_split_double_nan :
  eval Sample.split_double [nan] = Ok 2.5%float.
Proof. reflexivity. Qed.

Example fromJson_leaf_doc_double :
  fromJson (T:=double) Sample.cv Sample.cfg Sample.leaf_doc = Ok (LeafNode 2.5%float).
Proof. reflexivity. Qed.

Example fromJson_split_doc_int :
  fromJson (T:=Z) Sample.cv Sample.cfg Sample.split_doc =
  Ok (PartitionNode 0 30 1%float (LeafNode 0%float) (LeafNode 1%float)).
Proof. vm_compute. reflexivity. Qed.

(** X2: for [T = double] the conversions of [fromJson] are the identity,
    so every tree consistent with the configuration is read back as it
    was written, and so evaluates and votes as before. *)
Lemma roundtrip_double (cv : Conv) (cfg : Config) (t : TreeNode double) :
  consistent cfg t ->
  fromJson cv cfg (toJson cfg t) = Ok t.
Proof.
  intro C. apply fromJson_toJson; [exact C | |];
    apply Forall_forall; intros x _; reflexivity.
Qed.

(** C1, at [T = int]: the tree with a leaf voting 2.5 is consistent with
    the configuration, and is read back from its own serialization with
    that leaf voting 2.0 (and its own vote 0.5 as 0.0); on the vector [6]
    the tree evaluates to 2.5 and the tree read back to 2.0. *)
Theorem roundtrip_int_truncates_votes (cv : Conv) :
  consistent Sample.cfg
    (PartitionNode 0 5 0.5%float (LeafNode 1%float) (LeafNode 2.5%float)) /\
  fromJson (T:=Z) cv Sample.cfg
    (toJson Sample.cfg
       (PartitionNode 0 5 0.5%float (LeafNode 1%float) (LeafNode 2.5%float))) =
  Ok (PartitionNode 0 5 0%float (LeafNode 1%float) (LeafNode 2%float)) /\
  eval (PartitionNode 0 5 0.5%float (LeafNode 1%float) (LeafNode 2.5%float)) [6] =
  Ok 2.5%float /\
  eval (PartitionNode 0 5 0%float (LeafNode 1%float) (LeafNode 2%float)) [6] =
  Ok 2%float.
Proof.
  split; [| split; [| split]].
  - repeat constructor; cbn; lia.
  - vm_compute. reflexivity.
  - reflexivity.
  - reflexivity.
Qed.

(** C3, at [T = int]: the document {"vote":2.5} has no "feature" field,
    its "vote" field read with [asDouble] is 2.5, and it is deserialized
    to the leaf voting 2.0. *)
Theorem leaf_vote_truncated_by_int (cv : Conv) (cfg : Config) :
  feature_of Sample.leaf_doc = None /\
  (o <- dyn_at Sample.leaf_doc "vote" ;; asDouble cv o) = Ok 2.5%float /\
  fromJson (T:=Z) cv cfg Sample.leaf_doc = Ok (LeafNode 2%float).
Proof.
  split; [reflexivity | split; [reflexivity |]].
  vm_compute. reflexivity.
Qed.

(** ** The theorems at sample inputs *)

(** C4, as stated, fails on the empty object: it has no "feature" field
    and [fromJson] throws on reading its "vote". *)
Lemma leaf_doc_without_vote_throws :
  feature_of (DObject []) = None /\
  (forall cv cfg, fromJson (T:=double) cv cfg (DObject []) = Fail Thrown).
Proof.
  split; [reflexivity | intros cv cfg; reflexivity].
Qed.

Lemma leaf_iff_no_feature_witness :
  feature_of Sample.leaf_doc = None /\
  dyn_at Sample.leaf_doc "vote" = Ok (DDouble 2.5%float) /\
  asDouble Sample.cv (DDouble 2.5%float) = Ok 2.5%float /\
  T_of_double (T:=double) 2.5%float = Ok 2.5%float /\
  fromJson (T:=double) Sample.cv Sample.cfg Sample.leaf_doc = Ok (LeafNode 2.5%float).
Proof.
  split; [reflexivity | split; [reflexivity | split; [reflexivity |
    split; [reflexivity |]]]].
  exact (proj1 (proj2 (leaf_iff_no_feature (T:=double) Sample.cv Sample.cfg
                         Sample.leaf_doc))
           eq_refl (DDouble 2.5%float) 2.5%float 2.5%float
           eq_refl eq_refl eq_refl).
Defined.

Lemma eval_leaf_partition_witness :
  0 <= 0 < Z.of_nat (List.length [5]) /\
  exists x,
    nth_error [5] (Z.to_nat 0) = Some x /\
    eval Sample.split_int [5] =
    if T_leb x 5 then eval (LeafNode 1%float) [5] else eval (LeafNode 2%float) [5].
Proof.
  split; [cbn; lia |].
  apply (proj2 (eval_leaf_partition (T:=Z) [5])). cbn. lia.
Defined.

Lemma unresolved_feature_fails_witness :
  dyn_at Sample.unknown_doc "feature" = Ok (DString "height") /\
  getFeatureIndex Sample.cfg "height" < 0 /\
  is_ok (fromJson (T:=Z) Sample.cv Sample.cfg Sample.unknown_doc) = false /\
  (forall vote, read_vote (T:=Z) Sample.cv Sample.unknown_doc = Ok vote ->
                fromJson (T:=Z) Sample.cv Sample.cfg Sample.unknown_doc =
                Fail CheckFailed).
Proof.
  split; [reflexivity | split; [reflexivity |]].
  apply (unresolved_feature_fails (T:=Z) Sample.cv Sample.cfg Sample.unknown_doc
           (DString "height") "height"); reflexivity.
Defined.

Lemma missing_child_fails_witness :
  is_ok (dyn_at (DObject [("feature", DString "age"); ("value", DInt 7);
                          ("vote", DDouble 1%float);
                          ("left", DObject [("vote", DInt 0)])]) "right") = false /\
  is_ok (fromJson (T:=Z) Sample.cv Sample.cfg Sample.broken_doc) = false.
Proof.
  split; [reflexivity |].
  apply (missing_child_fails (T:=Z) Sample.cv Sample.cfg Sample.broken_doc
           (DObject [("feature", DString "age"); ("value", DInt 7);
                     ("vote", DDouble 1%float);
                     ("left", DObject [("vote", DInt 0)])])
           (DString "age")).
  - apply (reaches_child Sample.broken_doc Sample.broken_doc (DString "age") _ "right").
    + apply reaches_refl.
    + reflexivity.
    + right. reflexivity.
    + reflexivity.
  - reflexivity.
  - right. reflexivity.
Defined.

(** C7, as stated, fails on the leaf voting 0.1 with the weights 0.2 and
    0.3: scaled twice it votes (0.1 * 0.2) * 0.3, scaled once by
    0.2 * 0.3 it votes 0.1 * (0.2 * 0.3), and the two doubles differ. *)
Lemma scale_twice_differs :
  PrimFloat.eqb
    (getVote (scale Sample.three_tenths
                (scale Sample.fifth (LeafNode (T:=double) Sample.tenth))))
    (getVote (scale (Sample.fifth * Sample.three_tenths)%float
                (LeafNode (T:=double) Sample.tenth)))
  = false.
Proof. vm_compute. reflexivity. Qed.

Lemma scale_twice_witness :
  Forall (fun v : double => ((v * 2) * 0.5)%float = (v * (2 * 0.5))%float)
         (votes Sample.split_double) /\
  scale 0.5%float (scale 2%float Sample.split_double) =
  scale (2 * 0.5)%float Sample.split_double.
Proof.
  assert (A : Forall (fun v : double => ((v * 2) * 0.5)%float = (v * (2 * 0.5))%float)
                     (votes Sample.split_double))
    by (repeat constructor).
  split; [exact A |].
  apply (proj2 (proj2 (proj2 (scale_twice (T:=double) 2%float 0.5%float
                                Sample.split_double))) A).
Defined.

Lemma predict_vec_appends_witness :
  evals_to [Sample.split_int; Sample.split_int; Sample.split_int] [6]
           [2%float; 2%float; 2%float] /\
  predict_vec [Sample.split_int; Sample.split_int; Sample.split_int] [6] [9%float] =
  Ok (sum_doubles [2%float; 2%float; 2%float],
      [9%float] ++ partial_sums [2%float; 2%float; 2%float]).
Proof.
  assert (E : evals_to [Sample.split_int; Sample.split_int; Sample.split_int] [6]
                       [2%float; 2%float; 2%float])
    by (repeat constructor).
  split; [exact E |].
  apply (proj2 (predict_vec_appends (T:=Z) [6]
                  [Sample.split_int; Sample.split_int; Sample.split_int]
                  [9%float]) _ E).
Defined.

Lemma predict_is_sum_witness :
  Forall (covers [6]) [Sample.split_int; Sample.split_int] /\
  (exists es, evals_to [Sample.split_int; Sample.split_int] [6] es /\
              predict [Sample.split_int; Sample.split_int] [6] = Ok (sum_doubles es)) /\
  predict (T:=Z) [] [6] = Ok 0%float.
Proof.
  assert (C : Forall (covers [6]) [Sample.split_int; Sample.split_int])
    by (repeat constructor; cbn; lia).
  split; [exact C |].
  apply (predict_is_sum (T:=Z) [6] [Sample.split_int; Sample.split_int] C).
Defined.

Lemma predict_vec_running_totals_witness :
  Forall (covers [3]) [Sample.split_int; Sample.split_int; Sample.split_int] /\
  exists es scores,
    evals_to [Sample.split_int; Sample.split_int; Sample.split_int] [3] es /\
    predict_vec [Sample.split_int; Sample.split_int; Sample.split_int] [3] [] =
    Ok (sum_doubles es, scores) /\
    List.length scores = 3%nat /\
    (forall i, (i < 3)%nat ->
               nth_error scores i = Some (sum_doubles (firstn (S i) es))) /\
    predict [Sample.split_int; Sample.split_int; Sample.split_int] [3] =
    Ok (sum_doubles es) /\
    ([Sample.split_int; Sample.split_int; Sample.split_int] <> [] ->
     last scores 0%float = sum_doubles es).
Proof.
  assert (C : Forall (covers [3])
                [Sample.split_int; Sample.split_int; Sample.split_int])
    by (repeat constructor; cbn; lia).
  split; [exact C |].
  apply (predict_vec_running_totals (T:=Z) [3]
           [Sample.split_int; Sample.split_int; Sample.split_int] C).
Defined.

Example predict_vec_sample :
  predict_vec [Sample.split_int; Sample.split_int; Sample.split_int] [6] [9%float] =
  Ok (6%float, [9%float; 2%float; 4%float; 6%float]).
Proof. reflexivity. Qed.

(** ** Further properties of eval and scale *)

Section MoreTreeFacts.

Context {T : Type} {FT : FeatureType T}.

Lemma fvec_at_app (fvec extra : list T) (i : Z) :
  0 <= i < Z.of_nat (List.length fvec) ->
  fvec_at (fvec ++ extra) i = fvec_at fvec i.
Proof.
  intros [Lo Hi]. unfold fvec_at.
  destruct (i <? 0); [reflexivity |].
  rewrite nth_error_app1 by lia. reflexivity.
Qed.

Lemma eval_scale_res (w : double) (n : TreeNode T) (fvec : list T) :
  eval (scale w n) fvec = res_map (fun v => (v * w)%float) (eval n fvec).
Proof.
  induction n as [v | fid fv v l IHl r IHr]; cbn [scale eval].
  - reflexivity.
  - destruct (fvec_at fvec fid) as [x |]; [cbn [bind] | reflexivity].
    destruct (T_leb x fv); assumption.
Qed.

(** X3: a scaled tree evaluates to the value of the tree times the
    weight, and is undefined on the vectors on which the tree is. *)
Theorem eval_scale (w : double) (n : TreeNode T) (fvec : list T) :
  eval (scale w n) fvec = res_map (fun v => (v * w)%float) (eval n fvec).
Proof.
  apply eval_scale_res.
Qed.

(** X4: what [eval] returns is the vote of one of the leaves; the vote of
    a partition node is never returned. *)
Theorem eval_in_leaf_votes (n : TreeNode T) (fvec : list T) (e : double) :
  eval n fvec = Ok e -> In e (leaf_votes n).
Proof.
  induction n as [v | fid fv v l IHl r IHr]; cbn [eval leaf_votes]; intro H.
  - injection H as <-. left. reflexivity.
  - apply bind_ok in H. destruct H as (x & _ & H).
    apply in_or_app.
    destruct (T_leb x fv); [left; apply IHl | right; apply IHr]; exact H.
Qed.

(** X5: two vectors with the same elements at the feature indices of a
    tree (or both without an element there) give the same evaluation. *)
Theorem eval_agree (n : TreeNode T) (fvec1 fvec2 : list T) :
  Forall (fun i => fvec_at fvec1 i = fvec_at fvec2 i) (fids n) ->
  eval n fvec1 = eval n fvec2.
Proof.
  induction n as [v | fid fv v l IHl r IHr]; cbn [fids eval]; intro A.
  - reflexivity.
  - inversion A as [| ? ? Hfid A']; subst.
    apply Forall_app in A'. destruct A' as [Al Ar].
    rewrite Hfid, (IHl Al), (IHr Ar). reflexivity.
Qed.

(** X6: elements added behind a vector that covers the feature indices
    of a tree do not change the evaluation. *)
Theorem eval_longer_vector (n : TreeNode T) (fvec extra : list T) :
  covers fvec n ->
  eval n (fvec ++ extra) = eval n fvec.
Proof.
  unfold covers.
  induction n as [v | fid fv v l IHl r IHr]; cbn [fids eval]; intro C.
  - reflexivity.
  - inversion C as [| ? ? Hfid C']; subst.
    apply Forall_app in C'. destruct C' as [Cl Cr].
    rewrite (fvec_at_app fvec extra fid Hfid), (IHl Cl), (IHr Cr). reflexivity.
Qed.

(** X7: [scale] changes votes only: with the votes blanked, the tree
    after [scale(w)] is the tree before (same shape, same feature index
    and threshold at every partition node), and its votes are, node by
    node, the votes before times [w]. *)
Theorem scale_keeps_splits (w : double) (n : TreeNode T) :
  erase_votes (scale w n) = erase_votes n /\
  votes (scale w n) = map (fun v => (v * w)%float) (votes n).
Proof.
  split; [| apply votes_scale].
  unfold erase_votes.
  induction n as [v | fid fv v l IHl r IHr]; cbn [scale map_votes].
  - reflexivity.
  - rewrite IHl, IHr. reflexivity.
Qed.

End MoreTreeFacts.

(** X8: for [T = double], a partition node sends a vector to its right
    child when the element at its feature index is a NaN, and also when
    its threshold is a NaN. *)
Theorem eval_nan_goes_right (fid : Z) (fv : double) (fvote : double)
    (left_ right_ : TreeNode double) (fvec : list double) (x : double) :
  fvec_at fvec fid = Ok x ->
  PrimFloat.is_nan x = true \/ PrimFloat.is_nan fv = true ->
  eval (PartitionNode fid fv fvote left_ right_) fvec = eval right_ fvec.
Proof.
  intros A N. cbn [eval]. rewrite A. cbn [bind T_leb double_feature].
  assert (L : PrimFloat.leb x fv = false).
  { rewrite leb_spec. destruct N as [N | N].
    - unfold Prim2SF at 1. rewrite N. reflexivity.
    - unfold Prim2SF at 2. rewrite N.
      destruct (Prim2SF x) as [s | s | | s m e]; try destruct s; reflexivity. }
  rewrite L. reflexivity.
Qed.

(** ** Further properties of predict and predict_vec *)

Section MoreEnsembleFacts.

Context {T : Type} {FT : FeatureType T}.
Variable fvec : list T.

Lemma predict_loop_app (ms1 ms2 : list (TreeNode T)) :
  forall f,
    predict_loop f (ms1 ++ ms2) fvec =
    (g <- predict_loop f ms1 fvec ;; predict_loop g ms2 fvec).
Proof.
  induction ms1 as [| m rest IH]; intro f; cbn [app predict_loop].
  - reflexivity.
  - destruct (eval m fvec) as [e |]; [cbn [bind] | reflexivity].
    apply IH.
Qed.

(** X9: a tree added at the end of the collection adds its value to the
    prediction of the collection; the prediction is undefined when that
    of the collection or the value of the tree is. *)
Theorem predict_snoc (models : list (TreeNode T)) (m : TreeNode T) :
  predict (models ++ [m]) fvec =
  (f <- predict models fvec ;; e <- eval m fvec ;; Ok (f + e)%float).
Proof.
  unfold predict. rewrite predict_loop_app.
  destruct (predict_loop 0%float models fvec) as [f |]; [| reflexivity].
  reflexivity.
Qed.

Lemma predict_loop_ok (models : list (TreeNode T)) :
  forall f,
    is_ok (predict_loop f models fvec) =
    forallb (fun m => is_ok (eval m fvec)) models.
Proof.
  induction models as [| m rest IH]; intro f; cbn [predict_loop forallb].
  - reflexivity.
  - destruct (eval m fvec) as [e |]; [cbn [bind is_ok andb] | reflexivity].
    apply IH.
Qed.

(** X10: [predict] returns a sum exactly when every tree of the
    collection has a value on the vector; a single tree of the
    collection without a value there leaves [predict] without one. *)
Theorem predict_defined (models : list (TreeNode T)) :
  is_ok (predict models fvec) = forallb (fun m => is_ok (eval m fvec)) models /\
  (forall m, In m models ->
             is_ok (eval m fvec) = false ->
             is_ok (predict models fvec) = false).
Proof.
  assert (E : is_ok (predict models fvec) =
              forallb (fun m => is_ok (eval m fvec)) models)
    by apply predict_loop_ok.
  split; [exact E |].
  intros m I U. rewrite E.
  destruct (forallb (fun m => is_ok (eval m fvec)) models) eqn:B; [| reflexivity].
  rewrite forallb_forall in B. rewrite (B m I) in U. discriminate.
Qed.

Lemma predict_vec_loop_fst (models : list (TreeNode T)) :
  forall f score,
    res_map fst (predict_vec_loop f models fvec score) =
    predict_loop f models fvec.
Proof.
  induction models as [| m rest IH]; intros f score;
    cbn [predict_vec_loop predict_loop].
  - reflexivity.
  - destruct (eval m fvec) as [e |]; [cbn [bind] | reflexivity].
    apply IH.
Qed.

(** X11: whatever the score vector holds, and whether or not the trees
    have values on the vector, [predict_vec] returns what [predict]
    returns. *)
Theorem predict_vec_returns_predict (models : list (TreeNode T))
    (score : list double) :
  res_map fst (predict_vec models fvec score) = predict models fvec.
Proof.
  apply predict_vec_loop_fst.
Qed.

Lemma predict_vec_loop_entries (models : list (TreeNode T)) :
  forall f g scores,
    predict_vec_loop f models fvec [] = Ok (g, scores) ->
    List.length scores = List.length models /\
    (forall i s, nth_error scores i = Some s ->
                 predict_loop f (firstn (S i) models) fvec = Ok s).
Proof.
  induction models as [| m rest IH]; intros f g scores;
    cbn [predict_vec_loop].
  - intro H. injection H as _ <-. split; [reflexivity |].
    intros [| i] s N; discriminate.
  - destruct (eval m fvec) as [e |] eqn:E; [cbn [bind app] | discriminate].
    rewrite predict_vec_loop_app.
    destruct (predict_vec_loop (f + e)%float rest fvec []) as [[g' scores'] |] eqn:P;
      [cbn [res_map bind fst snd app] | discriminate].
    intro H. injection H as _ <-.
    destruct (IH _ _ _ P) as (L & N).
    split; [cbn [List.length]; rewrite L; reflexivity |].
    intros [| i] s Hs; cbn [nth_error] in Hs.
    + injection Hs as <-. cbn [firstn predict_loop]. rewrite E. reflexivity.
    + change (firstn (S (S i)) (m :: rest)) with (m :: firstn (S i) rest).
      cbn [predict_loop]. rewrite E. cbn [bind]. apply N. exact Hs.
Qed.

(** X12: when [predict_vec], called on an empty score vector, returns,
    the vector holds one entry per tree, and its entry number i is what
    [predict] returns on the first i + 1 trees. *)
Theorem predict_vec_entries_are_predicts (models : list (TreeNode T))
    (f : double) (scores : list double) :
  predict_vec models fvec [] = Ok (f, scores) ->
  List.length scores = List.length models /\
  (forall i s, nth_error scores i = Some s ->
               predict (firstn (S i) models) fvec = Ok s).
Proof.
  apply predict_vec_loop_entries.
Qed.

(** X13: the prediction of a collection of trees scaled by [w] is the
    sum, from the left, of the values of the trees each times [w]. *)
Theorem predict_scaled (w : double) (models : list (TreeNode T))
    (es : list double) :
  evals_to models fvec es ->
  predict (map (scale w) models) fvec =
  Ok (sum_doubles (map (fun e => (e * w)%float) es)).
Proof.
  intro E. apply predict_loop_sum.
  induction E as [| m e rest es Em _ IH]; cbn [map]; constructor.
  - rewrite eval_scale_res, Em. reflexivity.
  - exact IH.
Qed.

End MoreEnsembleFacts.

(** ** Further properties of fromJson *)

Section MoreCodecFacts.

Context {T : Type} {FT : FeatureType T}.
Variable cv : Conv.
Variable cfg : Config.

Lemma fromJson_leaf_inv (obj : dynamic) (v : double) :
  fromJson (T:=T) cv cfg obj = Ok (LeafNode v) ->
  feature_of obj = None /\ read_vote cv obj = Ok v.
Proof.
  intro H. pose proof (fromJson_kind cv cfg obj _ H) as K. cbn [is_leaf] in K.
  destruct (feature_of obj) as [f |] eqn:F; [discriminate |].
  split; [reflexivity |].
  rewrite (fromJson_no_feature cv cfg obj F) in H.
  destruct (read_vote cv obj) as [v' |]; [| discriminate].
  cbn [bind] in H. injection H as ->. reflexivity.
Qed.

Lemma fromJson_partition_inv (obj : dynamic) (fid : Z) (fv : T) (v : double)
    (l r : TreeNode T) :
  fromJson cv cfg obj = Ok (PartitionNode fid fv v l r) ->
  exists f name ol or,
    dyn_at obj "feature" = Ok f /\
    asString cv f = Ok name /\
    fid = getFeatureIndex cfg name /\
    0 <= fid /\
    read_vote cv obj = Ok v /\
    read_value cv obj = Ok fv /\
    dyn_at obj "left" = Ok ol /\ fromJson cv cfg ol = Ok l /\
    dyn_at obj "right" = Ok or /\ fromJson cv cfg or = Ok r.
Proof.
  intro H. pose proof (fromJson_kind cv cfg obj _ H) as K. cbn [is_leaf] in K.
  destruct (feature_of obj) as [f |] eqn:F; [| discriminate].
  rewrite (fromJson_feature cv cfg obj f F) in H.
  apply bind_ok in H. destruct H as (vote & V & H).
  apply bind_ok in H. destruct H as (name & N & H).
  destruct (getFeatureIndex cfg name <? 0) eqn:I; [discriminate |].
  apply bind_ok in H. destruct H as (value & Va & H).
  apply bind_ok in H. destruct H as (lt & L & H).
  apply bind_ok in H. destruct H as (rt & R & H).
  apply bind_ok in L. destruct L as (ol & Lo & L).
  apply bind_ok in R. destruct R as (or & Ro & R).
  injection H as <- <- <- <- <-.
  exists f, name, ol, or.
  apply Z.ltb_ge in I.
  unfold feature_of in F.
  destruct (dyn_at obj "feature") as [f' |]; [| discriminate].
  injection F as ->.
  repeat split; assumption.
Qed.

(** X14: [fromJson] reads the fields "feature", "vote", "value", "left"
    and "right" and no others: two documents in which these five are the
    same (or missing in both) are deserialized to the same result. *)
Theorem fromJson_same_fields (o1 o2 : dynamic) :
  Forall (fun key => dyn_at o1 key = dyn_at o2 key)
         ["feature"; "vote"; "value"; "left"; "right"] ->
  fromJson (T:=T) cv cfg o1 = fromJson cv cfg o2.
Proof.
  intro A.
  inversion A as [| ? ? Hf A1]; subst.
  inversion A1 as [| ? ? Hv A2]; subst.
  inversion A2 as [| ? ? Ha A3]; subst.
  inversion A3 as [| ? ? Hl A4]; subst.
  inversion A4 as [| ? ? Hr _]; subst.
  rewrite (fromJson_eq cv cfg o1), (fromJson_eq cv cfg o2).
  unfold fromJson_body, feature_of, read_vote, read_value.
  rewrite Hf, Hv, Ha, Hl, Hr. reflexivity.
Qed.

(** X15: every feature index of a tree that [fromJson] returns is not
    negative and is the index the configuration gives for some name. *)
Theorem fromJson_fids_resolved (t : TreeNode T) :
  forall obj,
    fromJson cv cfg obj = Ok t ->
    Forall (fun i => 0 <= i /\ exists name, getFeatureIndex cfg name = i) (fids t).
Proof.
  induction t as [v | fid fv v l IHl r IHr]; intros obj H; cbn [fids].
  - constructor.
  - apply fromJson_partition_inv in H.
    destruct H as (f & name & ol & or & _ & _ & I & P & _ & _ & _ & L & _ & R).
    constructor.
    + split; [exact P | exists name; symmetry; exact I].
    + apply Forall_app. split; [apply (IHl ol L) | apply (IHr or R)].
Qed.

Lemma fromJson_votes_read (t : TreeNode T) :
  forall obj,
    fromJson cv cfg obj = Ok t ->
    Forall (fun v => exists o, read_vote (T:=T) cv o = Ok v) (votes t).
Proof.
  induction t as [v | fid fv v l IHl r IHr]; intros obj H; cbn [votes].
  - apply fromJson_leaf_inv in H. destruct H as (_ & V).
    constructor; [exists obj; exact V | constructor].
  - apply fromJson_partition_inv in H.
    destruct H as (f & name & ol & or & _ & _ & _ & _ & V & _ & _ & L & _ & R).
    constructor; [exists obj; exact V |].
    apply Forall_app. split; [apply (IHl ol L) | apply (IHr or R)].
Qed.

Lemma fromJson_thresholds_read (t : TreeNode T) :
  forall obj,
    fromJson cv cfg obj = Ok t ->
    Forall (fun fv => exists o, read_value (T:=T) cv o = Ok fv) (thresholds t).
Proof.
  induction t as [v | fid fv v l IHl r IHr]; intros obj H; cbn [thresholds].
  - constructor.
  - apply fromJson_partition_inv in H.
    destruct H as (f & name & ol & or & _ & _ & _ & _ & _ & Va & _ & L & _ & R).
    constructor; [exists obj; exact Va |].
    apply Forall_app. split; [apply (IHl ol L) | apply (IHr or R)].
Qed.

Lemma fromJson_unreadable (obj : dynamic) :
  is_ok (read_vote (T:=T) cv obj) = false \/
  (exists f, dyn_at obj "feature" = Ok f /\
             (is_ok (asString cv f) = false \/
              is_ok (read_value (T:=T) cv obj) = false)) ->
  is_ok (fromJson (T:=T) cv cfg obj) = false.
Proof.
  intros [V | (f & F & [N | Va])].
  - rewrite fromJson_eq. unfold fromJson_body. apply bind_fail. exact V.
  - rewrite (fromJson_feature cv cfg obj f (feature_of_at obj f F)).
    destruct (read_vote cv obj) as [vote |]; [cbn [bind] | reflexivity].
    apply bind_fail. exact N.
  - rewrite (fromJson_feature cv cfg obj f (feature_of_at obj f F)).
    destruct (read_vote cv obj) as [vote |]; [cbn [bind] | reflexivity].
    destruct (asString cv f) as [name |]; [cbn [bind] | reflexivity].
    destruct (getFeatureIndex cfg name <? 0); [reflexivity |].
    apply bind_fail. exact Va.
Qed.

(** X16: if [fromJson], started on [top], comes to a document whose
    "vote" cannot be read, or to one with a "feature" field that is not
    convertible to a string or whose "value" cannot be read, the call on
    [top] returns no tree. *)
Theorem unreadable_field_fails (top obj : dynamic) :
  reaches top obj ->
  is_ok (read_vote (T:=T) cv obj) = false \/
  (exists f, dyn_at obj "feature" = Ok f /\
             (is_ok (asString cv f) = false \/
              is_ok (read_value (T:=T) cv obj) = false)) ->
  is_ok (fromJson (T:=T) cv cfg top) = false.
Proof.
  intros R U. apply (fromJson_reaches cv cfg top obj R).
  apply fromJson_unreadable. exact U.
Qed.

End MoreCodecFacts.

Lemma wrap_int_range (z : Z) : INT_MIN <= wrap_int z <= INT_MAX.
Proof.
  unfold wrap_int, INT_MIN, INT_MAX.
  pose proof (Z.mod_pos_bound (z + 2 ^ 31) (2 ^ 32) ltac:(lia)). lia.
Qed.

Lemma int_of_double_range (d : double) (z : Z) :
  int_of_double d = Ok z -> INT_MIN <= z <= INT_MAX.
Proof.
  unfold int_of_double.
  destruct (double_trunc d) as [z' |]; [| discriminate].
  destruct ((INT_MIN <=? z') && (z' <=? INT_MAX)) eqn:B; [| discriminate].
  intro H. injection H as <-.
  apply andb_true_iff in B. destruct B as [Lo Hi].
  apply Z.leb_le in Lo. apply Z.leb_le in Hi. lia.
Qed.

(** X17: for [T = int], every vote of a tree that [fromJson] returns,
    the votes of partition nodes included, is the double of an integer
    of the range of [int], and every threshold lies in that range. *)
Theorem fromJson_int_votes_integral (cv : Conv) (cfg : Config)
    (obj : dynamic) (t : TreeNode Z) :
  fromJson cv cfg obj = Ok t ->
  Forall (fun v => exists z, INT_MIN <= z <= INT_MAX /\ v = Z2double z) (votes t) /\
  Forall (fun fv => INT_MIN <= fv <= INT_MAX) (thresholds t).
Proof.
  intro H. split.
  - pose proof (fromJson_votes_read cv cfg t obj H) as V.
    apply (Forall_impl _ (P := fun v => exists o, read_vote (T:=Z) cv o = Ok v));
      [| exact V].
    intros v (o & R). unfold read_vote in R.
    apply bind_ok in R. destruct R as (o' & _ & R).
    apply bind_ok in R. destruct R as (d & _ & R).
    apply bind_ok in R. destruct R as (z & Z1 & R).
    injection R as <-.
    exists z. split; [apply (int_of_double_range d z Z1) | reflexivity].
  - pose proof (fromJson_thresholds_read cv cfg t obj H) as Th.
    apply (Forall_impl _ (P := fun fv => exists o, read_value (T:=Z) cv o = Ok fv));
      [| exact Th].
    intros fv (o & R). unfold read_value in R.
    apply bind_ok in R. destruct R as (o' & _ & R).
    destruct (isInt o').
    + apply bind_ok in R. destruct R as (i & _ & R).
      injection R as <-. apply wrap_int_range.
    + apply bind_ok in R. destruct R as (d & _ & R).
      apply (int_of_double_range d fv R).
Qed.

(** ** Round trip, whatever the conversions do *)

Section RoundTripShape.

Context {T : Type} {FT : FeatureType T}.
Variable cv : Conv.
Variable cfg : Config.

(** X18: whenever a serialized tree is deserialized to a tree at all,
    that tree is a leaf if the serialized one is, and its feature
    indices are, node by node, those the configuration gives for the
    names it gave to the indices of the serialized tree. *)
Theorem roundtrip_shape (n : TreeNode T) :
  forall t,
    fromJson cv cfg (toJson cfg n) = Ok t ->
    is_leaf t = is_leaf n /\
    fids t = map (fun i => getFeatureIndex cfg (getFeatureName cfg i)) (fids n).
Proof.
  induction n as [v | fid fv v l IHl r IHr]; intros t H.
  - pose proof (fromJson_kind cv cfg _ _ H) as K.
    change (feature_of (toJson cfg (LeafNode v))) with (@None dynamic) in K.
    destruct t as [v' | ]; [| discriminate].
    split; reflexivity.
  - pose proof (fromJson_kind cv cfg _ _ H) as K.
    change (feature_of (toJson cfg (PartitionNode fid fv v l r)))
      with (Some (DString (getFeatureName cfg fid))) in K.
    destruct t as [| fid' fv' v' l' r']; [discriminate |].
    apply fromJson_partition_inv in H.
    destruct H as (f & name & ol & or & F & N & I & _ & _ & _ & Lo & L & Ro & R).
    change (dyn_at (toJson cfg (PartitionNode fid fv v l r)) "feature")
      with (Ok (DString (getFeatureName cfg fid))) in F.
    change (dyn_at (toJson cfg (PartitionNode fid fv v l r)) "left")
      with (Ok (toJson cfg l)) in Lo.
    change (dyn_at (toJson cfg (PartitionNode fid fv v l r)) "right")
      with (Ok (toJson cfg r)) in Ro.
    injection F as <-. injection Lo as <-. injection Ro as <-.
    cbn [asString] in N. injection N as <-.
    destruct (IHl _ L) as (_ & Fl). destruct (IHr _ R) as (_ & Fr).
    split; [reflexivity |].
    cbn [fids map]. rewrite map_app, Fl, Fr, I. reflexivity.
Qed.

End RoundTripShape.

(** ** The further theorems at sample inputs *)

Lemma roundtrip_witness :
  consistent Sample.cfg Sample.split_int /\
  Forall vote_survives (votes Sample.split_int) /\
  Forall (threshold_survives Sample.cv) (thresholds Sample.split_int) /\
  fromJson Sample.cv Sample.cfg (toJson Sample.cfg Sample.split_int) =
  Ok Sample.split_int.
Proof.
  assert (C : consistent Sample.cfg Sample.split_int)
    by (repeat constructor; cbn; lia).
  assert (V : Forall vote_survives (votes Sample.split_int))
    by (repeat constructor; vm_compute; reflexivity).
  assert (Th : Forall (threshold_survives Sample.cv) (thresholds Sample.split_int))
    by (repeat constructor; vm_compute; reflexivity).
  split; [exact C | split; [exact V | split; [exact Th |]]].
  apply (roundtrip (T:=Z) Sample.cv Sample.cfg Sample.split_int C V Th).
Defined.

Lemma roundtrip_double_witness :
  consistent Sample.cfg Sample.split_double /\
  fromJson Sample.cv Sample.cfg (toJson Sample.cfg Sample.split_double) =
  Ok Sample.split_double.
Proof.
  assert (C : consistent Sample.cfg Sample.split_double)
    by (repeat constructor; cbn; lia).
  split; [exact C |].
  apply (roundtrip_double Sample.cv Sample.cfg Sample.split_double C).
Defined.

Lemma eval_in_leaf_votes_witness :
  eval Sample.split_int [6] = Ok 2%float /\
  In 2%float (leaf_votes Sample.split_int).
Proof.
  split; [reflexivity |].
  apply (eval_in_leaf_votes (T:=Z) Sample.split_int [6] 2%float). reflexivity.
Defined.

Lemma eval_agree_witness :
  Forall (fun i => fvec_at [3; 7] i = fvec_at [3; 9; 4] i) (fids Sample.split_int) /\
  eval Sample.split_int [3; 7] = eval Sample.split_int [3; 9; 4].
Proof.
  assert (A : Forall (fun i => fvec_at [3; 7] i = fvec_at [3; 9; 4] i)
                     (fids Sample.split_int))
    by (repeat constructor).
  split; [exact A |].
  apply (eval_agree (T:=Z) Sample.split_int [3; 7] [3; 9; 4] A).
Defined.

Lemma eval_longer_vector_witness :
  covers [6] Sample.split_int /\
  eval Sample.split_int ([6] ++ [8; 9]) = eval Sample.split_int [6].
Proof.
  assert (C : covers [6] Sample.split_int) by (repeat constructor; cbn; lia).
  split; [exact C |].
  apply (eval_longer_vector (T:=Z) Sample.split_int [6] [8; 9] C).
Defined.

Lemma eval_nan_goes_right_witness :
  fvec_at [nan] 0 = Ok nan /\
  PrimFloat.is_nan nan = true /\
  eval Sample.split_double [nan] = eval (LeafNode (T:=double) 2.5%float) [nan].
Proof.
  split; [reflexivity | split; [reflexivity |]].
  apply (eval_nan_goes_right 0 5%float 1.5%float (LeafNode 1%float)
           (LeafNode 2.5%float) [nan] nan); [reflexivity | left; reflexivity].
Defined.

Lemma predict_vec_entries_are_predicts_witness :
  predict_vec [Sample.split_int; Sample.split_int; Sample.split_int] [6] [] =
  Ok (6%float, [2%float; 4%float; 6%float]) /\
  List.length [2%float; 4%float; 6%float] = 3%nat /\
  (forall i s, nth_error [2%float; 4%float; 6%float] i = Some s ->
               predict (firstn (S i)
                          [Sample.split_int; Sample.split_int; Sample.split_int])
                       [6] = Ok s).
Proof.
  split; [reflexivity |].
  apply (predict_vec_entries_are_predicts (T:=Z) [6]
           [Sample.split_int; Sample.split_int; Sample.split_int]
           6%float [2%float; 4%float; 6%float]).
  reflexivity.
Defined.

Lemma predict_scaled_witness :
  evals_to [Sample.split_int; Sample.split_int] [6] [2%float; 2%float] /\
  predict (map (scale 0.5%float) [Sample.split_int; Sample.split_int]) [6] =
  Ok (sum_doubles (map (fun e => (e * 0.5)%float) [2%float; 2%float])).
Proof.
  assert (E : evals_to [Sample.split_int; Sample.split_int] [6] [2%float; 2%float])
    by (repeat constructor).
  split; [exact E |].
  apply (predict_scaled (T:=Z) [6] 0.5%float
           [Sample.split_int; Sample.split_int] [2%float; 2%float] E).
Defined.

Lemma fromJson_same_fields_witness :
  Forall (fun key => dyn_at Sample.leaf_doc key =
                     dyn_at Sample.leaf_doc_with_index key)
         ["feature"; "vote"; "value"; "left"; "right"] /\
  fromJson (T:=double) Sample.cv Sample.cfg Sample.leaf_doc =
  fromJson Sample.cv Sample.cfg Sample.leaf_doc_with_index.
Proof.
  assert (A : Forall (fun key => dyn_at Sample.leaf_doc key =
                                 dyn_at Sample.leaf_doc_with_index key)
                     ["feature"; "vote"; "value"; "left"; "right"])
    by (repeat constructor).
  split; [exact A |].
  apply (fromJson_same_fields (T:=double) Sample.cv Sample.cfg
           Sample.leaf_doc Sample.leaf_doc_with_index A).
Defined.

Lemma fromJson_fids_resolved_witness :
  fromJson (T:=Z) Sample.cv Sample.cfg Sample.split_doc =
  Ok (PartitionNode 0 30 1%float (LeafNode 0%float) (LeafNode 1%float)) /\
  Forall (fun i => 0 <= i /\ exists name, getFeatureIndex Sample.cfg name = i)
         (fids (PartitionNode (T:=Z) 0 30 1%float
                  (LeafNode 0%float) (LeafNode 1%float))).
Proof.
  assert (H : fromJson (T:=Z) Sample.cv Sample.cfg Sample.split_doc =
              Ok (PartitionNode 0 30 1%float (LeafNode 0%float) (LeafNode 1%float)))
    by (vm_compute; reflexivity).
  split; [exact H |].
  apply (fromJson_fids_resolved (T:=Z) Sample.cv Sample.cfg _ Sample.split_doc H).
Defined.

Lemma unreadable_field_fails_witness :
  dyn_at Sample.bad_vote_doc "left" = Ok (DObject [("vote", DString "high")]) /\
  is_ok (read_vote (T:=Z) Sample.cv (DObject [("vote", DString "high")])) = false /\
  is_ok (fromJson (T:=Z) Sample.cv Sample.cfg Sample.bad_vote_doc) = false.
Proof.
  split; [reflexivity | split; [reflexivity |]].
  apply (unreadable_field_fails (T:=Z) Sample.cv Sample.cfg Sample.bad_vote_doc
           (DObject [("vote", DString "high")])).
  - apply (reaches_child Sample.bad_vote_doc Sample.bad_vote_doc (DString "age") _ "left").
    + apply reaches_refl.
    + reflexivity.
    + left. reflexivity.
    + reflexivity.
  - left. reflexivity.
Defined.

Lemma fromJson_int_votes_integral_witness :
  fromJson (T:=Z) Sample.cv Sample.cfg Sample.split_doc =
  Ok (PartitionNode 0 30 1%float (LeafNode 0%float) (LeafNode 1%float)) /\
  Forall (fun v => exists z, INT_MIN <= z <= INT_MAX /\ v = Z2double z)
         [1%float; 0%float; 1%float] /\
  Forall (fun fv => INT_MIN <= fv <= INT_MAX) [30].
Proof.
  assert (H : fromJson (T:=Z) Sample.cv Sample.cfg Sample.split_doc =
              Ok (PartitionNode 0 30 1%float (LeafNode 0%float) (LeafNode 1%float)))
    by (vm_compute; reflexivity).
  split; [exact H |].
  apply (fromJson_int_votes_integral Sample.cv Sample.cfg Sample.split_doc _ H).
Defined.

Lemma roundtrip_shape_witness :
  fromJson Sample.cv Sample.cfg (toJson Sample.cfg Sample.fractional_int) =
  Ok (PartitionNode 0 5 0%float (LeafNode 1%float) (LeafNode 2%float)) /\
  is_leaf (PartitionNode (T:=Z) 0 5 0%float (LeafNode 1%float) (LeafNode 2%float)) =
  is_leaf Sample.fractional_int /\
  fids (PartitionNode (T:=Z) 0 5 0%float (LeafNode 1%float) (LeafNode 2%float)) =
  map (fun i => getFeatureIndex Sample.cfg (getFeatureName Sample.cfg i))
      (fids Sample.fractional_int).
Proof.
  assert (H : fromJson Sample.cv Sample.cfg (toJson Sample.cfg Sample.fractional_int) =
              Ok (PartitionNode 0 5 0%float (LeafNode 1%float) (LeafNode 2%float)))
    by (vm_compute; reflexivity).
  split; [exact H |].
  apply (roundtrip_shape (T:=Z) Sample.cv Sample.cfg Sample.fractional_int _ H).
Defined.

Lemma predict_defined_witness :
  In (PartitionNode 1 5 0%float (LeafNode 1%float) (LeafNode 2%float))
     [Sample.split_int;
      PartitionNode 1 5 0%float (LeafNode 1%float) (LeafNode 2%float)] /\
  is_ok (eval (PartitionNode 1 5 0%float (LeafNode 1%float) (LeafNode 2%float))
              [3]) = false /\
  is_ok (predict [Sample.split_int;
                  PartitionNode 1 5 0%float (LeafNode 1%float) (LeafNode 2%float)]
                 [3]) = false.
Proof.
  assert (I : In (PartitionNode 1 5 0%float (LeafNode 1%float) (LeafNode 2%float))
                 [Sample.split_int;
                  PartitionNode 1 5 0%float (LeafNode 1%float) (LeafNode 2%float)])
    by (right; left; reflexivity).
  split; [exact I | split; [reflexivity |]].
  apply (proj2 (predict_defined (T:=Z) [3]
                  [Sample.split_int;
                   PartitionNode 1 5 0%float (LeafNode 1%float) (LeafNode 2%float)])
           _ I).
  reflexivity.
Defined.
